(** * ucs_vnic_template_vlan: the Ansible module that puts a VLAN on a
      UCS vNIC template

    A shallow embedding of [src/ucs_vnic_template_vlan.py].  The module is
    a straight line of calls on a [UcsHandle] (login, two queries, an
    optional [add_mo]/[commit], logout) wrapped in the [AnsibleModule]
    calling convention.  The handle and the remote UCS Manager behind it
    belong to the vendor SDK, so they are a parameter of the development:
    every statement about [main] holds for every behaviour of the SDK.  A
    small reference model of UCS Manager instantiates the parameter for
    the concrete runs. *)

From stdpp Require Import base strings list gmap.

(** ** Python values, exceptions and SDK calls *)

(** An instance of [Exception]; only its message is ever looked at
    ([fail_json(msg=e)]). *)
Inductive exn := Exception (msg : string).

Definition exn_msg (e : exn) : string := let 'Exception m := e in m.

(** A managed object as a query returns it: its class and its
    distinguished name. *)
Record ManagedObject := mkMo {
  mo_class_id : string;
  mo_dn : string
}.

(** What a handle call may hand back: [None], a boolean, a managed object
    or a list of managed objects. *)
Inductive value :=
| VNone
| VBool (b : bool)
| VObj (mo : ManagedObject)
| VList (l : list ManagedObject).

(** Python truthiness, as tested by [if vnic_vlan_query:] and
    [if vlan_exists:]. *)
Definition truthy (v : value) : bool :=
  match v with
  | VNone => false
  | VBool b => b
  | VObj _ => true
  | VList [] => false
  | VList (_ :: _) => true
  end.

(** [VnicEtherIf(parent_mo_or_dn=..., default_net=..., name=...)]. *)
Record VnicEtherIf := mkVnicEtherIf {
  parent_mo_or_dn : string;
  default_net : string;
  name : string
}.

(** The methods of [UcsHandle] the module uses. *)
Inductive call :=
| Login (ip user pw : string)
| Logout
| QueryDn (dn : string)
| QueryClassid (class_id filter_str : string)
| AddMo (mo : VnicEtherIf)
| Commit.

(** A call either raises or returns. *)
Definition reply : Type := exn + value.

(** How the module terminates: [exit_json] with the entries of [results]
    as keyword arguments, or [fail_json(msg=...)]; both print their
    arguments and raise [SystemExit]. *)
Inductive exit :=
| ExitJson (kwargs : gmap string bool)
| FailJson (msg : string).

Inductive outcome (A : Type) :=
| Returned (a : A)
| Raised (e : exn)
| Exited (x : exit).
Arguments Returned {A} a.
Arguments Raised {A} e.
Arguments Exited {A} x.

(** [policy_owner] has [choices = ['local', 'pending-policy', 'policy']]. *)
Inductive owner := Local_owner | Pending_policy | Policy.

(** [module.params] after argument parsing. *)
Record params := mkParams {
  vlan_name : string;
  vnic_template_name : string;
  org : list string;
  policy_owner : owner;
  hostname : string;
  password : string;
  username : string
}.

(** [class UCS]: the credentials; its [handle] is the SDK state below. *)
Record UCS := mkUCS {
  ucsm_ip : string;
  ucsm_login : string;
  ucsm_pw : string
}.

(** The double quote of [type="eq"]. *)
Definition dq : string := String (Ascii.ascii_of_nat 34) "".

(** Lines 213-217 of [main]: the loop over [org] and the final append. *)
Definition build_vnic_templ_dn (org : list string) (vnic_template_name : string) : string :=
  let vnic_templ_dn := "" in
  let vnic_templ_dn :=
    fold_left (fun acc org_name => acc +:+ ("org-" +:+ org_name +:+ "/")) org vnic_templ_dn in
  vnic_templ_dn +:+ ("lan-conn-templ-" +:+ vnic_template_name).

(** Path resolution as the specification words it: one ["org-<segment>/"]
    per segment, in order, then ["lan-conn-templ-<templateName>"]. *)
Definition resolve_spec (orgSegments : list string) (templateName : string) : string :=
  String.concat "" (map (fun segment => "org-" +:+ segment +:+ "/") orgSegments)
  +:+ "lan-conn-templ-" +:+ templateName.

(** [filter_string = '(name, {0}, type="eq")'.format(vlan_name)]. *)
Definition filter_string (vlan_name : string) : string :=
  "(name, " +:+ vlan_name +:+ ", type=" +:+ dq +:+ "eq" +:+ dq +:+ ")".

Section Module.

(** The state of the handle and of UCS Manager behind it, and what each
    call does to it. *)
Context {W : Type}.
Variable sdk : call -> W -> reply * W.

(** The run-time state: the SDK state, the one [results] dictionary that
    [main] creates and every helper mutates in place, and the calls made
    so far with their replies. *)
Record state := mkState {
  remote : W;
  results : gmap string bool;
  log : list (call * reply)
}.

Definition M (A : Type) : Type := state -> outcome A * state.

Definition ret {A} (a : A) : M A := fun s => (Returned a, s).

Definition bind {A B} (m : M A) (k : A -> M B) : M B :=
  fun s =>
    match m s with
    | (Returned a, s') => k a s'
    | (Raised e, s') => (Raised e, s')
    | (Exited x, s') => (Exited x, s')
    end.

(** [try: body / except Exception as e: handler].  [SystemExit] is not an
    [Exception], so an exit passes through. *)
Definition try_except {A} (body : M A) (handler : exn -> M A) : M A :=
  fun s =>
    match body s with
    | (Raised e, s') => handler e s'
    | r => r
    end.

(** One call on [ucsm.handle], recorded in the log. *)
Definition invoke (c : call) : M value :=
  fun s =>
    let '(r, w') := sdk c (remote s) in
    let s' := mkState w' (results s) (log s ++ [(c, r)]) in
    match r with
    | inl e => (Raised e, s')
    | inr v => (Returned v, s')
    end.

(** [results[k] = b]. *)
Definition set_result (k : string) (b : bool) : M unit :=
  fun s => (Returned tt, mkState (remote s) (<[k:=b]> (results s)) (log s)).

(** [results = {}]. *)
Definition new_results : M unit :=
  fun s => (Returned tt, mkState (remote s) ∅ (log s)).

(** [module.fail_json(msg=...)]: never returns. *)
Definition fail_json {A} (msg : string) : M A :=
  fun s => (Exited (FailJson msg), s).

(** [module.exit_json] on the entries of [results]: never returns. *)
Definition exit_json {A} : M A :=
  fun s => (Exited (ExitJson (results s)), s).

End Module.

Arguments state W : clear implicits.
Arguments M W A : clear implicits.

Declare Scope ucs_scope.
Delimit Scope ucs_scope with ucs.
Notation "x <- m ;; k" := (bind m (fun x => k))
  (at level 100, m at next level, right associativity) : ucs_scope.
Notation "m ;;; k" := (bind m (fun _ => k))
  (at level 100, right associativity) : ucs_scope.

Local Open Scope ucs_scope.

(** ** The module's functions

    They keep the names and the order of the source.  The [module] argument
    of the Python functions is the pair [fail_json]/[exit_json] above, and
    their [results] argument and return value is the one dictionary held in
    the state. *)

Section Program.

Context {W : Type}.
Variable sdk : call -> W -> reply * W.

(** [UCS.login]: [self.handle.login()], with the credentials the handle
    was built from. *)
Definition UCS_login (ucsm : UCS) : M W value :=
  invoke sdk (Login (ucsm_ip ucsm) (ucsm_login ucsm) (ucsm_pw ucsm)).

(** [UCS.logout]: [self.handle.logout()].  [main] does not go through it:
    [log_out_of_ucs] calls the handle directly. *)
Definition UCS_logout (ucsm : UCS) : M W value :=
  invoke sdk Logout.

Definition check_if_vlan_on_vnic (ucsm : UCS) (vnic_templ_dn vlan_name : string) : M W bool :=
  let proposed_vlan_dn := vnic_templ_dn +:+ "/if-" +:+ vlan_name in
  vnic_vlan_query <- invoke sdk (QueryDn proposed_vlan_dn) ;;
  if truthy vnic_vlan_query then ret true else ret false.

Definition log_into_ucs (ucsm : UCS) : M W unit :=
  (try_except
     (UCS_login ucsm ;;;
      set_result "logged_in" true)
     (fun e => fail_json (exn_msg e))) ;;;
  ret tt.

Definition log_out_of_ucs (ucsm : UCS) : M W unit :=
  (try_except
     (invoke sdk Logout ;;;
      set_result "logged_out" true)
     (fun e => fail_json (exn_msg e))) ;;;
  ret tt.

Definition check_vlan_exists_on_fi (ucsm : UCS) (vlan_name : string) : M W bool :=
  let filter_string := filter_string vlan_name in
  vlan_exists <- invoke sdk (QueryClassid "fabricVlan" filter_string) ;;
  if truthy vlan_exists then ret true else ret false.

(** [str(vlan_name)] is the name itself.  The assignment after [fail_json]
    in the handler is kept where the source has it. *)
Definition add_vlan_to_vnic_template (ucsm : UCS) (vnic_templ_dn vlan_name : string)
    (vlan_on_vnic_template : bool) : M W unit :=
  let mo := mkVnicEtherIf vnic_templ_dn "no" vlan_name in
  (try_except
     (if negb vlan_on_vnic_template then
        invoke sdk (AddMo mo) ;;;
        invoke sdk Commit ;;;
        set_result "changed" true
      else ret tt)
     (fun e =>
        fail_json (A:=unit) (exn_msg e) ;;;
        set_result "changed" false)) ;;;
  ret tt.

Definition main (p : params) : M W unit :=
  let vlan_name := vlan_name p in
  let org := org p in
  let vnic_template_name := vnic_template_name p in
  let ucsm_ip := hostname p in
  let ucsm_login := username p in
  let ucsm_pw := password p in
  let policy_owner := policy_owner p in
  let ucsm := mkUCS ucsm_ip ucsm_login ucsm_pw in
  new_results ;;;
  let vnic_templ_dn := build_vnic_templ_dn org vnic_template_name in
  log_into_ucs ucsm ;;;
  vlan_on_vnic_template <- check_if_vlan_on_vnic ucsm vnic_templ_dn vlan_name ;;
  vlan_on_fi <- check_vlan_exists_on_fi ucsm vlan_name ;;
  if negb vlan_on_fi then
    set_result "changed" false ;;;
    fail_json "VLAN does not exist on UCS Fabric Interconnects"
  else if negb vlan_on_vnic_template then
    add_vlan_to_vnic_template ucsm vnic_templ_dn vlan_name vlan_on_vnic_template ;;;
    log_out_of_ucs ucsm ;;;
    exit_json
  else
    set_result "changed" false ;;;
    log_out_of_ucs ucsm ;;;
    exit_json.

(** A fresh invocation against SDK state [w]. *)
Definition run (p : params) (w : W) : outcome unit * state W :=
  main p (mkState w ∅ []).

End Program.

(** ** What a run did, read off its log *)

(** The mutating calls. *)
Definition is_write (c : call) : bool :=
  match c with
  | AddMo _ | Commit => true
  | _ => false
  end.

Definition is_add_mo (c : call) : bool :=
  match c with AddMo _ => true | _ => false end.

Definition is_logout (c : call) : bool :=
  match c with Logout => true | _ => false end.

Definition calls (l : list (call * reply)) : list call := map fst l.

(** A log entry that is not a write. *)
Definition no_write {A} (e : call * A) : Prop := is_write e.1 = false.

(** The write calls of a log, in order. *)
Definition writes (l : list (call * reply)) : list call := filter is_write (calls l).

(** The calls [main] makes for parameters [p]. *)
Definition target_dn (p : params) : string :=
  build_vnic_templ_dn (org p) (vnic_template_name p).

Definition login_call (p : params) : call :=
  Login (hostname p) (username p) (password p).

Definition vnic_query (p : params) : call :=
  QueryDn (target_dn p +:+ "/if-" +:+ vlan_name p).

Definition fabric_query (p : params) : call :=
  QueryClassid "fabricVlan" (filter_string (vlan_name p)).

Definition add_call (p : params) : call :=
  AddMo (mkVnicEtherIf (target_dn p) "no" (vlan_name p)).

(** A log entry in which the fabric-wide query of [p] returned and
    [check_vlan_exists_on_fi] answered [b]. *)
Definition fi_check (p : params) (b : bool) (e : call * reply) : Prop :=
  exists v, e = (fabric_query p, inr v) /\ truthy v = b.

Section Replies.

Context {W : Type}.
Variable sdk : call -> W -> reply * W.

(** The session opens and both queries return: from SDK state [w0] the
    login returns [v0], the query for the VLAN on the template returns
    [v1], the fabric-wide query returns [v2], leaving state [w3]. *)
Definition checks_reply (p : params) (w0 w3 : W) (v0 v1 v2 : value) : Prop :=
  exists w1 w2,
    sdk (login_call p) w0 = (inr v0, w1) /\
    sdk (vnic_query p) w1 = (inr v1, w2) /\
    sdk (fabric_query p) w2 = (inr v2, w3).

End Replies.

(** ** A reference model of UCS Manager *)

Inductive op := OpLogin | OpLogout | OpQueryDn | OpQueryClassid | OpAddMo | OpCommit.

Definition op_of (c : call) : op :=
  match c with
  | Login _ _ _ => OpLogin
  | Logout => OpLogout
  | QueryDn _ => OpQueryDn
  | QueryClassid _ _ => OpQueryClassid
  | AddMo _ => OpAddMo
  | Commit => OpCommit
  end.

Definition op_eqb (a b : op) : bool :=
  match a, b with
  | OpLogin, OpLogin | OpLogout, OpLogout | OpQueryDn, OpQueryDn
  | OpQueryClassid, OpQueryClassid | OpAddMo, OpAddMo | OpCommit, OpCommit => true
  | _, _ => false
  end.

(** Modelled from the spec: UCS Manager and the SDK handle are not part of
    the repository.  The model keeps the distinguished names of the
    VLAN-on-template objects committed so far, the names of the VLANs
    defined on the fabric, the objects added to the handle but not yet
    committed, and the operations that are out of order (each with the
    message of the exception it raises). *)
Record ucsm_sim := mkSim {
  mit : list string;
  fabric_vlans : list string;
  pending : list VnicEtherIf;
  faults : list (op * string)
}.

Definition fault_of (o : op) (fs : list (op * string)) : option string :=
  snd <$> find (fun f => op_eqb o (fst f)) fs.

(** The distinguished name of a [VnicEtherIf]: [if-<name>] under its
    parent. *)
Definition VnicEtherIf_dn (mo : VnicEtherIf) : string :=
  parent_mo_or_dn mo +:+ "/if-" +:+ name mo.

(** Modelled from the spec: a query by distinguished name finds a
    committed child object, the fabric query finds the fabric VLANs whose
    name matches the filter exactly, [add_mo] queues an object and
    [commit] makes the queued objects visible. *)
Definition sim_sdk (c : call) (s : ucsm_sim) : reply * ucsm_sim :=
  match fault_of (op_of c) (faults s) with
  | Some msg => (inl (Exception msg), s)
  | None =>
    match c with
    | Login _ _ _ => (inr (VBool true), s)
    | Logout => (inr (VBool true), s)
    | QueryDn dn =>
        (inr (if existsb (String.eqb dn) (mit s)
              then VObj (mkMo "vnicEtherIf" dn) else VNone), s)
    | QueryClassid class_id flt =>
        (inr (VList
                (if String.eqb class_id "fabricVlan"
                 then map (fun n => mkMo "fabricVlan" ("fabric/lan/net-" +:+ n))
                          (filter (fun n => String.eqb (filter_string n) flt = true)
                                  (fabric_vlans s))
                 else [])), s)
    | AddMo mo =>
        (inr VNone, mkSim (mit s) (fabric_vlans s) (pending s ++ [mo]) (faults s))
    | Commit =>
        (inr VNone,
         mkSim (mit s ++ map VnicEtherIf_dn (pending s)) (fabric_vlans s) [] (faults s))
    end
  end.

(** The play of the module's documentation: VLAN [test-vlan_666] on
    template [data-A] in org [root/company/test]. *)
Definition example_params : params :=
  mkParams "test-vlan_666" "data-A" ["root"; "company"; "test"] Local_owner
           "ucsm.example" "secret" "admin".

Definition example_dn : string := "org-root/org-company/org-test/lan-conn-templ-data-A".

(** A UCS Manager on which the VLAN is defined fabric-wide and not yet on
    the template. *)
Definition sim_fresh : ucsm_sim := mkSim [] ["test-vlan_666"] [] [].

(** One on which the VLAN is not defined fabric-wide. *)
Definition sim_no_vlan : ucsm_sim := mkSim [] ["default"] [] [].

(** One on which the VLAN is already on the template. *)
Definition sim_done : ucsm_sim :=
  mkSim [example_dn +:+ "/if-test-vlan_666"] ["test-vlan_666"] [] [].


(** The same three, with one operation out of order. *)
Definition sim_fresh_logout_down : ucsm_sim :=
  mkSim [] ["test-vlan_666"] [] [(OpLogout, "session expired")].

Definition sim_done_logout_down : ucsm_sim :=
  mkSim [example_dn +:+ "/if-test-vlan_666"] ["test-vlan_666"] []
        [(OpLogout, "session expired")].

Definition sim_fresh_commit_down : ucsm_sim :=
  mkSim [] ["test-vlan_666"] [] [(OpCommit, "commit rejected")].

Definition sim_login_down : ucsm_sim :=
  mkSim [] ["test-vlan_666"] [] [(OpLogin, "bad credentials")].

Definition sim_query_dn_down : ucsm_sim :=
  mkSim [] ["test-vlan_666"] [] [(OpQueryDn, "connection reset")].

Definition sim_query_classid_down : ucsm_sim :=
  mkSim [] ["test-vlan_666"] [] [(OpQueryClassid, "connection reset")].

Definition sim_fresh_add_down : ucsm_sim :=
  mkSim [] ["test-vlan_666"] [] [(OpAddMo, "add rejected")].

(** The fabric VLAN object the model answers with. *)
Definition example_fabric_vlan : ManagedObject :=
  mkMo "fabricVlan" "fabric/lan/net-test-vlan_666".


Arguments build_vnic_templ_dn : simpl never.
Arguments filter_string : simpl never.

(** ** Proof support *)

Ltac unfold_module :=
  unfold run, main, log_into_ucs, log_out_of_ucs, check_if_vlan_on_vnic,
    check_vlan_exists_on_fi, add_vlan_to_vnic_template, UCS_login,
    bind, try_except, invoke, ret, set_result, new_results, fail_json, exit_json;
  cbn [remote results log ucsm_ip ucsm_login ucsm_pw].

(** Split on the reply of every call the run reaches and on the truth of
    every value it tests. *)
Ltac split_replies sdk :=
  repeat (match goal with
          | |- context [sdk ?c ?w] => destruct (sdk c w) as [[?|?] ?] eqn:?
          | |- context [truthy ?v] => destruct (truthy v) eqn:?
          end; cbn [remote results log negb fst snd app]).

(** Index-based facts about logs, shared by the safety proofs. *)
Section Logs.

Context {A : Type}.
Implicit Types (l pre post : list (call * A)) (P : call * A -> Prop).

Lemma lookup_no_write l i c r :
  Forall no_write l -> l !! i = Some (c, r) -> is_write c = false.
Proof.
  intros Hl Hi. rewrite Forall_lookup in Hl. exact (Hl i (c, r) Hi).
Qed.

Lemma guarded_no_write P l :
  Forall no_write l ->
  forall i c r, l !! i = Some (c, r) -> is_write c = true ->
    exists j e, j < i /\ l !! j = Some e /\ P e.
Proof.
  intros Hl i c r Hi Hw. rewrite (lookup_no_write l i c r Hl Hi) in Hw. discriminate.
Qed.

Lemma guarded_split P pre e post :
  Forall no_write pre -> no_write e -> P e ->
  forall i c r, (pre ++ e :: post) !! i = Some (c, r) -> is_write c = true ->
    exists j e', j < i /\ (pre ++ e :: post) !! j = Some e' /\ P e'.
Proof.
  intros Hpre Hne He i c r Hi Hw.
  destruct (Nat.lt_trichotomy i (length pre)) as [Hlt | [-> | Hgt]].
  - rewrite lookup_app_l in Hi by assumption.
    rewrite (lookup_no_write pre i c r Hpre Hi) in Hw. discriminate.
  - rewrite list_lookup_middle in Hi by reflexivity.
    injection Hi as ->. unfold no_write in Hne. cbn in Hne. congruence.
  - exists (length pre), e. split; [assumption|]. split; [|assumption].
    apply list_lookup_middle. reflexivity.
Qed.

Lemma quiet_no_write P l :
  Forall no_write l ->
  forall j e, l !! j = Some e -> P e ->
    forall i c r, j < i -> l !! i = Some (c, r) -> is_write c = false.
Proof.
  intros Hl j e _ _ i c r _ Hi. exact (lookup_no_write l i c r Hl Hi).
Qed.

Lemma quiet_none P l :
  Forall (fun e => ~ P e) l ->
  forall j e, l !! j = Some e -> P e ->
    forall i c r, j < i -> l !! i = Some (c, r) -> is_write c = false.
Proof.
  intros Hl j e Hj He. rewrite Forall_lookup in Hl. destruct (Hl j e Hj He).
Qed.

End Logs.

Section Safety.

Context {W : Type}.
Variable sdk : call -> W -> reply * W.

(** C1: in every invocation a write ([add_mo] or [commit]) is issued only
    after the fabric-wide check of the same invocation has returned true,
    and no write follows a fabric-wide check that returned false. *)
Theorem write_only_after_fabric_check (p : params) (w : W) :
  let l := log (run sdk p w).2 in
  (forall i c r, l !! i = Some (c, r) -> is_write c = true ->
     exists j e, j < i /\ l !! j = Some e /\ fi_check p true e) /\
  (forall j e, l !! j = Some e -> fi_check p false e ->
     forall i c r, j < i -> l !! i = Some (c, r) -> is_write c = false).
Proof.
  unfold_module. split_replies sdk.
  all: split.
  all: try solve [apply guarded_no_write; repeat constructor].
  all: try solve [apply quiet_no_write; repeat constructor].
  all: try solve [apply (guarded_split _ [_; _]);
            [repeat constructor | reflexivity | eexists; split; [reflexivity|assumption]]].
  all: apply quiet_none; repeat constructor.
  all: intros [v' [Heq Hv]]; try discriminate Heq.
  all: injection Heq as <-; congruence.
Qed.

End Safety.

(** Replay a run along replies given as hypotheses. *)
Ltac unfold_calls :=
  unfold checks_reply, login_call, vnic_query, fabric_query, add_call, target_dn in *.

Ltac replay :=
  repeat (match goal with
          | H : ?sdk ?c ?w = _ |- context [?sdk ?c ?w] => rewrite H
          | H : truthy ?v = _ |- context [truthy ?v] => rewrite H
          | |- context [truthy ?v] => destruct (truthy v)
          end; cbn [remote results log negb fst snd app]).

Section Decisions.

Context {W : Type}.
Variable sdk : call -> W -> reply * W.

(** The run when the VLAN is not defined on the fabric: the module sets
    [changed] to false and fails, after three calls. *)
Lemma run_fabric_absent (p : params) (w0 w3 : W) (v0 v1 v2 : value) :
  checks_reply sdk p w0 w3 v0 v1 v2 -> truthy v2 = false ->
  run sdk p w0 =
    (Exited (FailJson "VLAN does not exist on UCS Fabric Interconnects"),
     mkState w3 (<["changed":=false]> (<["logged_in":=true]> ∅))
       [(login_call p, inr v0); (vnic_query p, inr v1); (fabric_query p, inr v2)]).
Proof.
  intros (w1 & w2 & H0 & H1 & H2) Hfi. unfold_calls. unfold_module. replay.
  all: reflexivity.
Qed.

(** The run when the VLAN is on the fabric and already on the template, up
    to the reply of the logout. *)
Lemma run_already_present (p : params) (w0 w3 w4 : W) (v0 v1 v2 : value) (r3 : reply) :
  checks_reply sdk p w0 w3 v0 v1 v2 -> truthy v2 = true -> truthy v1 = true ->
  sdk Logout w3 = (r3, w4) ->
  let l := [(login_call p, inr v0); (vnic_query p, inr v1); (fabric_query p, inr v2);
            (Logout, r3)] in
  let res := <["changed":=false]> (<["logged_in":=true]> ∅) in
  run sdk p w0 =
    match r3 with
    | inr _ => (Exited (ExitJson (<["logged_out":=true]> res)),
                mkState w4 (<["logged_out":=true]> res) l)
    | inl e => (Exited (FailJson (exn_msg e)), mkState w4 res l)
    end.
Proof.
  intros (w1 & w2 & H0 & H1 & H2) Hfi Hon H3. unfold_calls. unfold_module. replay.
  all: destruct r3; reflexivity.
Qed.

(** The run when the VLAN is on the fabric and not on the template: what
    happens when [add_mo] raises, when [commit] raises, and when both
    return, up to the reply of the logout. *)
Lemma run_add_raises (p : params) (w0 w3 w4 : W) (v0 v1 v2 : value) (e : exn) :
  checks_reply sdk p w0 w3 v0 v1 v2 -> truthy v2 = true -> truthy v1 = false ->
  sdk (add_call p) w3 = (inl e, w4) ->
  run sdk p w0 =
    (Exited (FailJson (exn_msg e)),
     mkState w4 (<["logged_in":=true]> ∅)
       [(login_call p, inr v0); (vnic_query p, inr v1); (fabric_query p, inr v2);
        (add_call p, inl e)]).
Proof.
  intros (w1 & w2 & H0 & H1 & H2) Hfi Hon H3. unfold_calls. unfold_module. replay.
  all: reflexivity.
Qed.

Lemma run_commit_raises (p : params) (w0 w3 w4 w5 : W) (v0 v1 v2 v3 : value) (e : exn) :
  checks_reply sdk p w0 w3 v0 v1 v2 -> truthy v2 = true -> truthy v1 = false ->
  sdk (add_call p) w3 = (inr v3, w4) -> sdk Commit w4 = (inl e, w5) ->
  run sdk p w0 =
    (Exited (FailJson (exn_msg e)),
     mkState w5 (<["logged_in":=true]> ∅)
       [(login_call p, inr v0); (vnic_query p, inr v1); (fabric_query p, inr v2);
        (add_call p, inr v3); (Commit, inl e)]).
Proof.
  intros (w1 & w2 & H0 & H1 & H2) Hfi Hon H3 H4. unfold_calls. unfold_module. replay.
  all: reflexivity.
Qed.

Lemma run_committed (p : params) (w0 w3 w4 w5 w6 : W) (v0 v1 v2 v3 v4 : value) (r5 : reply) :
  checks_reply sdk p w0 w3 v0 v1 v2 -> truthy v2 = true -> truthy v1 = false ->
  sdk (add_call p) w3 = (inr v3, w4) -> sdk Commit w4 = (inr v4, w5) ->
  sdk Logout w5 = (r5, w6) ->
  let l := [(login_call p, inr v0); (vnic_query p, inr v1); (fabric_query p, inr v2);
            (add_call p, inr v3); (Commit, inr v4); (Logout, r5)] in
  let res := <["changed":=true]> (<["logged_in":=true]> ∅) in
  run sdk p w0 =
    match r5 with
    | inr _ => (Exited (ExitJson (<["logged_out":=true]> res)),
                mkState w6 (<["logged_out":=true]> res) l)
    | inl e => (Exited (FailJson (exn_msg e)), mkState w6 res l)
    end.
Proof.
  intros (w1 & w2 & H0 & H1 & H2) Hfi Hon H3 H4 H5. unfold_calls. unfold_module. replay.
  all: destruct r5; reflexivity.
Qed.

End Decisions.

(** ** The decision table *)

Section Table.

Context {W : Type}.
Variable sdk : call -> W -> reply * W.

(** C2 (amended): whenever the fabric-wide query returns a falsy value,
    whatever the query for the VLAN on the template returned, the run fails
    with the message "VLAN does not exist on UCS Fabric Interconnects", the
    [results] mapping has [changed = false], and no write call is issued. *)
Theorem fabric_absent_fails (p : params) (w0 w3 : W) (v0 v1 v2 : value) :
  checks_reply sdk p w0 w3 v0 v1 v2 -> truthy v2 = false ->
  let r := run sdk p w0 in
  r.1 = Exited (FailJson "VLAN does not exist on UCS Fabric Interconnects") /\
  results r.2 !! "changed" = Some false /\
  writes (log r.2) = [].
Proof.
  intros Hc Hfi r. subst r. rewrite (run_fabric_absent sdk p w0 w3 v0 v1 v2 Hc Hfi).
  repeat split.
Qed.

(** C3 (amended): whenever the fabric-wide query returns a truthy value and
    the query for the VLAN on the template a falsy one, exactly one [add_mo]
    is issued; if it returns, exactly one [commit] follows it and these are
    the only writes; if the commit and then the logout return as well, the
    run exits successfully with the result mapping
    [{logged_in: true, logged_out: true, changed: true}]; and if the logout
    raises after the commit has returned, the run fails with the message of
    the logout exception. *)
Theorem vlan_added_when_missing (p : params) (w0 w3 : W) (v0 v1 v2 : value) :
  checks_reply sdk p w0 w3 v0 v1 v2 -> truthy v2 = true -> truthy v1 = false ->
  let r := run sdk p w0 in
  filter is_add_mo (calls (log r.2)) = [add_call p] /\
  (forall v3 w4, sdk (add_call p) w3 = (inr v3, w4) ->
     writes (log r.2) = [add_call p; Commit] /\
     (forall v4 w5 v5 w6,
        sdk Commit w4 = (inr v4, w5) -> sdk Logout w5 = (inr v5, w6) ->
        r.1 = Exited (ExitJson {["logged_in" := true; "logged_out" := true;
                                 "changed" := true]})) /\
     (forall v4 w5 e w6,
        sdk Commit w4 = (inr v4, w5) -> sdk Logout w5 = (inl e, w6) ->
        r.1 = Exited (FailJson (exn_msg e)) /\
        results r.2 = {["logged_in" := true; "changed" := true]})).
Proof.
  intros Hc Hfi Hon r. subst r.
  destruct (sdk (add_call p) w3) as [[e|v3] w4] eqn:Hadd.
  - rewrite (run_add_raises sdk p w0 w3 w4 v0 v1 v2 e Hc Hfi Hon Hadd).
    split; [reflexivity | intros ? ? [=]].
  - destruct (sdk Commit w4) as [[e|v4] w5] eqn:Hcommit.
    + rewrite (run_commit_raises sdk p w0 w3 w4 w5 v0 v1 v2 v3 e Hc Hfi Hon Hadd Hcommit).
      split; [reflexivity|]. intros ? ? [= <- <-]. split; [reflexivity|].
      split; intros ? ? ? ? Hcommit'; rewrite Hcommit in Hcommit'; discriminate.
    + destruct (sdk Logout w5) as [r5 w6] eqn:Hout.
      rewrite (run_committed sdk p w0 w3 w4 w5 w6 v0 v1 v2 v3 v4 r5 Hc Hfi Hon Hadd Hcommit Hout).
      split; [destruct r5; reflexivity|]. intros ? ? [= <- <-].
      split; [destruct r5; reflexivity|].
      split; intros ? ? ? ? Hcommit'; rewrite Hcommit in Hcommit';
        injection Hcommit' as <- <-; intros Hout'; rewrite Hout in Hout';
        injection Hout' as -> <-.
      * reflexivity.
      * split; reflexivity.
Qed.

(** C4 (amended): whenever both queries return truthy values, no write call
    is issued and the [results] mapping has [changed = false]; if the logout
    returns, the run exits successfully with
    [{logged_in: true, changed: false, logged_out: true}]; and if the logout
    raises, the run fails with the message of the logout exception. *)
Theorem vlan_present_is_noop (p : params) (w0 w3 : W) (v0 v1 v2 : value) :
  checks_reply sdk p w0 w3 v0 v1 v2 -> truthy v2 = true -> truthy v1 = true ->
  let r := run sdk p w0 in
  writes (log r.2) = [] /\
  results r.2 !! "changed" = Some false /\
  (forall v3 w4, sdk Logout w3 = (inr v3, w4) ->
     r.1 = Exited (ExitJson {["logged_in" := true; "changed" := false;
                              "logged_out" := true]})) /\
  (forall e w4, sdk Logout w3 = (inl e, w4) ->
     r.1 = Exited (FailJson (exn_msg e))).
Proof.
  intros Hc Hfi Hon r. subst r.
  destruct (sdk Logout w3) as [r3 w4] eqn:Hout.
  rewrite (run_already_present sdk p w0 w3 w4 v0 v1 v2 r3 Hc Hfi Hon Hout).
  split; [destruct r3; reflexivity|]. split; [destruct r3; reflexivity|].
  split; intros ? ? [= -> <-]; reflexivity.
Qed.

End Table.

(** ** Path resolution *)

Lemma append_cons (a : Ascii.ascii) (s t : string) : String a s +:+ t = String a (s +:+ t).
Proof. reflexivity. Qed.

Lemma append_nil_r (s : string) : s +:+ "" = s.
Proof. induction s as [|a s IH]; [reflexivity|]. rewrite append_cons, IH. reflexivity. Qed.

Lemma append_assoc (s t u : string) : (s +:+ t) +:+ u = s +:+ (t +:+ u).
Proof.
  induction s as [|a s IH]; [reflexivity|]. rewrite !append_cons, IH. reflexivity.
Qed.

Lemma concat_no_separator (x : string) (xs : list string) :
  String.concat "" (x :: xs) = x +:+ String.concat "" xs.
Proof.
  destruct xs as [|y ys]; cbn [String.concat].
  - symmetry. apply append_nil_r.
  - reflexivity.
Qed.

(** The loop of [main], started from any prefix. *)
Lemma org_loop (orgs : list string) (acc : string) :
  fold_left (fun acc org_name => acc +:+ ("org-" +:+ org_name +:+ "/")) orgs acc =
  acc +:+ String.concat "" (map (fun segment => "org-" +:+ segment +:+ "/") orgs).
Proof.
  revert acc. induction orgs as [|o orgs IH]; intros acc.
  - cbn [fold_left map String.concat]. symmetry. apply append_nil_r.
  - cbn [fold_left map]. rewrite IH, concat_no_separator, append_assoc. reflexivity.
Qed.

(** C7: path resolution is a function of the [org] list and the template
    name alone; it is the concatenation of ["org-" + segment + "/"] over the
    segments in order, followed by ["lan-conn-templ-" + templateName], and
    on [["root"; "ccl"]] and ["data-A"] it gives
    ["org-root/org-ccl/lan-conn-templ-data-A"]. *)
Theorem path_resolution_concatenates :
  (forall (orgs : list string) (t : string),
     build_vnic_templ_dn orgs t = resolve_spec orgs t) /\
  (forall (t : string), build_vnic_templ_dn [] t = "lan-conn-templ-" +:+ t) /\
  (forall (o : string) (orgs : list string) (t : string),
     build_vnic_templ_dn (o :: orgs) t = "org-" +:+ o +:+ "/" +:+ build_vnic_templ_dn orgs t) /\
  build_vnic_templ_dn ["root"; "ccl"] "data-A" = "org-root/org-ccl/lan-conn-templ-data-A".
Proof.
  split; [|split; [|split]].
  - intros orgs t. unfold build_vnic_templ_dn, resolve_spec. rewrite org_loop. reflexivity.
  - reflexivity.
  - intros o orgs t. unfold build_vnic_templ_dn. rewrite !org_loop.
    cbn [map]. rewrite concat_no_separator, !append_assoc. reflexivity.
  - reflexivity.
Qed.

Section Inert.

Context {W : Type}.
Variable sdk : call -> W -> reply * W.

(** C9: two runs whose parameters differ only in [policy_owner] make the
    same calls, get the same replies and end with the same outcome and the
    same [results] mapping. *)
Theorem policy_owner_is_inert (vlan tmpl : string) (orgs : list string)
    (po1 po2 : owner) (host pw user : string) (w : W) :
  run sdk (mkParams vlan tmpl orgs po1 host pw user) w =
  run sdk (mkParams vlan tmpl orgs po2 host pw user) w.
Proof. reflexivity. Qed.


End Inert.

(** ** Running the module twice *)

Section Twice.

Context {W : Type}.
Variable sdk : call -> W -> reply * W.

(** C8: a first run finds the VLAN on the fabric and not on the template and
    commits the association; a second run, started in the SDK state the
    first one left, finds the VLAN on the fabric and now on the template.
    Then [changed] is true in the results of the first run and false in
    those of the second, and the second run issues no write; when the
    logout returns, these results are what the run exits with. *)
Theorem second_run_changes_nothing (p : params) (w0 w3 w4 w5 w6 w9 : W)
    (v0 v1 v2 v3 v4 u0 u1 u2 : value) (r5 : reply) :
  checks_reply sdk p w0 w3 v0 v1 v2 -> truthy v2 = true -> truthy v1 = false ->
  sdk (add_call p) w3 = (inr v3, w4) -> sdk Commit w4 = (inr v4, w5) ->
  sdk Logout w5 = (r5, w6) ->
  checks_reply sdk p w6 w9 u0 u1 u2 -> truthy u2 = true -> truthy u1 = true ->
  let first := run sdk p w0 in
  let second := run sdk p (remote first.2) in
  results first.2 !! "changed" = Some true /\
  results second.2 !! "changed" = Some false /\
  writes (log second.2) = [] /\
  (forall v5, r5 = inr v5 ->
     first.1 = Exited (ExitJson {["logged_in" := true; "changed" := true;
                                  "logged_out" := true]})) /\
  (forall u3 w10, sdk Logout w9 = (inr u3, w10) ->
     second.1 = Exited (ExitJson {["logged_in" := true; "changed" := false;
                                   "logged_out" := true]})).
Proof.
  intros Hc Hfi Hoff Hadd Hcommit Hout Hc' Hfi' Hon first second. subst first second.
  rewrite (run_committed sdk p w0 w3 w4 w5 w6 v0 v1 v2 v3 v4 r5 Hc Hfi Hoff Hadd Hcommit Hout).
  assert (Hw : forall (a b : outcome unit * state W), remote (match r5 with inl _ => a | inr _ => b end).2
               = match r5 with inl _ => remote a.2 | inr _ => remote b.2 end)
    by (intros; destruct r5; reflexivity).
  destruct (sdk Logout w9) as [r9 w10] eqn:Hout'.
  assert (Hsecond := run_already_present sdk p w6 w9 w10 u0 u1 u2 r9 Hc' Hfi' Hon Hout').
  cbv zeta in Hsecond.
  destruct r5 as [e5|v5]; cbn [fst snd remote results]; rewrite Hsecond.
  all: split; [reflexivity|]; split; [destruct r9; reflexivity|].
  all: split; [destruct r9; reflexivity|]; split.
  all: try (intros ? [=]; fail).
  all: try (intros ? _; reflexivity).
  all: intros ? ? [= -> <-]; reflexivity.
Qed.

End Twice.

(** In the reference model the second run does observe what the first one
    committed: on a UCS Manager without faults that has the VLAN on the
    fabric and not on the template, two runs in sequence change it once. *)
Lemma sim_fabric_query_truthy (p : params) (fab : list string) :
  vlan_name p ∈ fab ->
  exists mo l,
    map (fun n => mkMo "fabricVlan" ("fabric/lan/net-" +:+ n))
        (filter (fun n => String.eqb (filter_string n) (filter_string (vlan_name p)) = true) fab)
    = mo :: l.
Proof.
  intros Hin.
  destruct (filter (fun n => String.eqb (filter_string n) (filter_string (vlan_name p)) = true) fab)
    as [|n l] eqn:Hf.
  - exfalso. eapply elem_of_nil. rewrite <- Hf. apply list_elem_of_filter.
    split; [apply String.eqb_refl | exact Hin].
  - eexists _, _. reflexivity.
Qed.

Lemma sim_twice (p : params) (tree fab : list string) :
  vlan_name p ∈ fab ->
  existsb (String.eqb (target_dn p +:+ "/if-" +:+ vlan_name p)) tree = false ->
  let first := run sim_sdk p (mkSim tree fab [] []) in
  let second := run sim_sdk p (remote first.2) in
  first.1 = Exited (ExitJson (<["logged_out":=true]> (<["changed":=true]> (<["logged_in":=true]> ∅)))) /\
  second.1 = Exited (ExitJson (<["logged_out":=true]> (<["changed":=false]> (<["logged_in":=true]> ∅)))) /\
  writes (log first.2) = [add_call p; Commit] /\
  writes (log second.2) = [].
Proof.
  intros Hin Hoff first second. subst first second.
  destruct (sim_fabric_query_truthy p fab Hin) as (mo & l & Hq).
  set (dn := target_dn p +:+ "/if-" +:+ vlan_name p) in *.
  set (s0 := mkSim tree fab [] []).
  set (s1 := mkSim tree fab [mkVnicEtherIf (target_dn p) "no" (vlan_name p)] []).
  set (s2 := mkSim (tree ++ [dn]) fab [] []).
  assert (H1 : run sim_sdk p s0 =
    (Exited (ExitJson (<["logged_out":=true]> (<["changed":=true]> (<["logged_in":=true]> ∅)))),
     mkState s2 (<["logged_out":=true]> (<["changed":=true]> (<["logged_in":=true]> ∅)))
       [(login_call p, inr (VBool true)); (vnic_query p, inr VNone);
        (fabric_query p, inr (VList (mo :: l)));
        (add_call p, inr VNone); (Commit, inr VNone); (Logout, inr (VBool true))])).
  { apply (run_committed sim_sdk p s0 s0 s1 s2 s2 (VBool true) VNone (VList (mo :: l))
             VNone VNone (inr (VBool true))); try reflexivity.
    exists s0, s0. split; [reflexivity|]. split.
    - unfold vnic_query, sim_sdk. cbn [fault_of faults s0 find fmap option_fmap option_map op_of mit].
      fold dn. rewrite Hoff. reflexivity.
    - unfold fabric_query, sim_sdk.
      cbn [fault_of faults s0 find fmap option_fmap option_map op_of fabric_vlans].
      rewrite String.eqb_refl, Hq. reflexivity. }
  rewrite H1. cbn [fst snd remote].
  assert (H2 : run sim_sdk p s2 =
    (Exited (ExitJson (<["logged_out":=true]> (<["changed":=false]> (<["logged_in":=true]> ∅)))),
     mkState s2 (<["logged_out":=true]> (<["changed":=false]> (<["logged_in":=true]> ∅)))
       [(login_call p, inr (VBool true)); (vnic_query p, inr (VObj (mkMo "vnicEtherIf" dn)));
        (fabric_query p, inr (VList (mo :: l))); (Logout, inr (VBool true))])).
  { apply (run_already_present sim_sdk p s2 s2 s2 (VBool true) (VObj (mkMo "vnicEtherIf" dn))
             (VList (mo :: l)) (inr (VBool true))); try reflexivity.
    exists s2, s2. split; [reflexivity|]. split.
    - unfold vnic_query, sim_sdk. cbn [fault_of faults s2 find fmap option_fmap option_map op_of mit].
      fold dn. rewrite existsb_app. cbn [existsb]. rewrite String.eqb_refl, orb_true_r.
      reflexivity.
    - unfold fabric_query, sim_sdk.
      cbn [fault_of faults s2 find fmap option_fmap option_map op_of fabric_vlans].
      rewrite String.eqb_refl, Hq. reflexivity. }
  rewrite H2. repeat split.
Qed.

(** ** The documented play, run against the reference model *)

(** The play on a UCS Manager whose fabric lacks the VLAN. *)
Lemma fabric_absent_fails_witness :
  checks_reply sim_sdk example_params sim_no_vlan sim_no_vlan (VBool true) VNone (VList []) /\
  truthy (VList []) = false /\
  (run sim_sdk example_params sim_no_vlan).1 =
    Exited (FailJson "VLAN does not exist on UCS Fabric Interconnects") /\
  results (run sim_sdk example_params sim_no_vlan).2 !! "changed" = Some false /\
  writes (log (run sim_sdk example_params sim_no_vlan).2) = [].
Proof.
  assert (Hc : checks_reply sim_sdk example_params sim_no_vlan sim_no_vlan
                 (VBool true) VNone (VList []))
    by (exists sim_no_vlan, sim_no_vlan; repeat split).
  split; [exact Hc|]. split; [reflexivity|].
  exact (fabric_absent_fails sim_sdk example_params sim_no_vlan sim_no_vlan
           (VBool true) VNone (VList []) Hc eq_refl).
Defined.

(** The claim quotes the failure message without "UCS": on a UCS Manager
    that lacks the VLAN the fabric-wide query returns the empty list, and
    the run does not fail with the quoted message. *)
Lemma fabric_absent_message_differs :
  checks_reply sim_sdk example_params sim_no_vlan sim_no_vlan (VBool true) VNone (VList []) /\
  truthy (VList []) = false /\
  (run sim_sdk example_params sim_no_vlan).1 <>
    Exited (FailJson "VLAN does not exist on Fabric Interconnects").
Proof.
  split; [exists sim_no_vlan, sim_no_vlan; repeat split|].
  split; [reflexivity|]. vm_compute. discriminate.
Qed.

(** The play on a UCS Manager that has the VLAN on the fabric only. *)
Lemma vlan_added_when_missing_witness :
  checks_reply sim_sdk example_params sim_fresh sim_fresh
    (VBool true) VNone (VList [example_fabric_vlan]) /\
  truthy (VList [example_fabric_vlan]) = true /\
  truthy VNone = false /\
  filter is_add_mo (calls (log (run sim_sdk example_params sim_fresh).2)) =
    [add_call example_params] /\
  writes (log (run sim_sdk example_params sim_fresh).2) = [add_call example_params; Commit] /\
  (run sim_sdk example_params sim_fresh).1 =
    Exited (ExitJson {["logged_in" := true; "logged_out" := true; "changed" := true]}).
Proof.
  assert (Hc : checks_reply sim_sdk example_params sim_fresh sim_fresh
                 (VBool true) VNone (VList [example_fabric_vlan]))
    by (exists sim_fresh, sim_fresh; repeat split).
  destruct (vlan_added_when_missing sim_sdk example_params sim_fresh sim_fresh
              (VBool true) VNone (VList [example_fabric_vlan]) Hc eq_refl eq_refl)
    as [Hadd Hrest].
  destruct (Hrest VNone
              (mkSim [] ["test-vlan_666"]
                     [mkVnicEtherIf example_dn "no" "test-vlan_666"] []) eq_refl)
    as (Hwrites & Hexit & Hfail).
  split; [exact Hc|]. split; [reflexivity|]. split; [reflexivity|].
  split; [exact Hadd|]. split; [exact Hwrites|].
  exact (Hexit VNone sim_done (VBool true) sim_done eq_refl eq_refl).
Defined.

(** After a committed write the logout can still raise, and then the run
    fails instead of exiting successfully. *)
Lemma added_but_logout_fails :
  checks_reply sim_sdk example_params sim_fresh_logout_down sim_fresh_logout_down
    (VBool true) VNone (VList [example_fabric_vlan]) /\
  truthy (VList [example_fabric_vlan]) = true /\
  truthy VNone = false /\
  log (run sim_sdk example_params sim_fresh_logout_down).2 !! 3 =
    Some (add_call example_params, inr VNone) /\
  log (run sim_sdk example_params sim_fresh_logout_down).2 !! 4 = Some (Commit, inr VNone) /\
  (run sim_sdk example_params sim_fresh_logout_down).1 = Exited (FailJson "session expired") /\
  (forall kwargs, (run sim_sdk example_params sim_fresh_logout_down).1 <> Exited (ExitJson kwargs)).
Proof.
  split; [exists sim_fresh_logout_down, sim_fresh_logout_down; repeat split|].
  repeat (split; [reflexivity|]). intros kwargs. vm_compute. discriminate.
Qed.

(** The play on a UCS Manager that already has the VLAN on the template. *)
Lemma vlan_present_is_noop_witness :
  checks_reply sim_sdk example_params sim_done sim_done
    (VBool true) (VObj (mkMo "vnicEtherIf" (example_dn +:+ "/if-test-vlan_666")))
    (VList [example_fabric_vlan]) /\
  truthy (VList [example_fabric_vlan]) = true /\
  truthy (VObj (mkMo "vnicEtherIf" (example_dn +:+ "/if-test-vlan_666"))) = true /\
  writes (log (run sim_sdk example_params sim_done).2) = [] /\
  results (run sim_sdk example_params sim_done).2 !! "changed" = Some false /\
  (run sim_sdk example_params sim_done).1 =
    Exited (ExitJson {["logged_in" := true; "changed" := false; "logged_out" := true]}).
Proof.
  assert (Hc : checks_reply sim_sdk example_params sim_done sim_done
                 (VBool true) (VObj (mkMo "vnicEtherIf" (example_dn +:+ "/if-test-vlan_666")))
                 (VList [example_fabric_vlan]))
    by (exists sim_done, sim_done; repeat split).
  destruct (vlan_present_is_noop sim_sdk example_params sim_done sim_done
              (VBool true) (VObj (mkMo "vnicEtherIf" (example_dn +:+ "/if-test-vlan_666")))
              (VList [example_fabric_vlan]) Hc eq_refl eq_refl)
    as (Hwrites & Hchanged & Hexit & Hfail).
  split; [exact Hc|]. split; [reflexivity|]. split; [reflexivity|].
  split; [exact Hwrites|]. split; [exact Hchanged|].
  exact (Hexit (VBool true) sim_done eq_refl).
Defined.

(** With the VLAN already on the template the logout can raise as well,
    and the run then fails. *)
Lemma present_but_logout_fails :
  checks_reply sim_sdk example_params sim_done_logout_down sim_done_logout_down
    (VBool true) (VObj (mkMo "vnicEtherIf" (example_dn +:+ "/if-test-vlan_666")))
    (VList [example_fabric_vlan]) /\
  truthy (VList [example_fabric_vlan]) = true /\
  truthy (VObj (mkMo "vnicEtherIf" (example_dn +:+ "/if-test-vlan_666"))) = true /\
  (run sim_sdk example_params sim_done_logout_down).1 = Exited (FailJson "session expired") /\
  (forall kwargs, (run sim_sdk example_params sim_done_logout_down).1 <> Exited (ExitJson kwargs)).
Proof.
  split; [exists sim_done_logout_down, sim_done_logout_down; repeat split|].
  repeat (split; [reflexivity|]). intros kwargs. vm_compute. discriminate.
Qed.

(** C5 (the code departs from the claim): a run that has opened its session
    and then fails, because the VLAN is not on the fabric or because the
    commit is rejected, exits without having called logout, whereas the two
    successful branches do call it. *)
Theorem failing_run_leaves_session_open :
  let absent := run sim_sdk example_params sim_no_vlan in
  let rejected := run sim_sdk example_params sim_fresh_commit_down in
  let added := run sim_sdk example_params sim_fresh in
  (absent.1 = Exited (FailJson "VLAN does not exist on UCS Fabric Interconnects") /\
   log absent.2 !! 0 = Some (login_call example_params, inr (VBool true)) /\
   results absent.2 !! "logged_in" = Some true /\
   filter is_logout (calls (log absent.2)) = []) /\
  (rejected.1 = Exited (FailJson "commit rejected") /\
   log rejected.2 !! 0 = Some (login_call example_params, inr (VBool true)) /\
   results rejected.2 !! "logged_in" = Some true /\
   filter is_logout (calls (log rejected.2)) = []) /\
  filter is_logout (calls (log added.2)) = [Logout].
Proof. repeat split. Qed.

(** C6 (the code departs from the claim): when [add_mo] or [commit] raises,
    the run fails with the message of the exception, and the assignment
    [results['changed'] = False] that follows [fail_json] is never reached:
    the results mapping has no [changed] entry at all. *)
Theorem write_error_leaves_changed_unset :
  let rejected := run sim_sdk example_params sim_fresh_commit_down in
  let refused := run sim_sdk example_params sim_fresh_add_down in
  (rejected.1 = Exited (FailJson "commit rejected") /\
   results rejected.2 = {["logged_in" := true]} /\
   results rejected.2 !! "changed" = None) /\
  (refused.1 = Exited (FailJson "add rejected") /\
   results refused.2 = {["logged_in" := true]} /\
   results refused.2 !! "changed" = None).
Proof. repeat split. Qed.

(** The play run twice: the first run leaves the UCS Manager in the state
    [sim_done], which the second run starts from. *)
Lemma second_run_changes_nothing_witness :
  let first := run sim_sdk example_params sim_fresh in
  let second := run sim_sdk example_params (remote first.2) in
  remote first.2 = sim_done /\
  results first.2 !! "changed" = Some true /\
  results second.2 !! "changed" = Some false /\
  writes (log second.2) = [] /\
  first.1 = Exited (ExitJson {["logged_in" := true; "changed" := true;
                               "logged_out" := true]}) /\
  second.1 = Exited (ExitJson {["logged_in" := true; "changed" := false;
                                "logged_out" := true]}).
Proof.
  assert (Hc : checks_reply sim_sdk example_params sim_fresh sim_fresh
                 (VBool true) VNone (VList [example_fabric_vlan]))
    by (exists sim_fresh, sim_fresh; repeat split).
  assert (Hc' : checks_reply sim_sdk example_params sim_done sim_done
                  (VBool true) (VObj (mkMo "vnicEtherIf" (example_dn +:+ "/if-test-vlan_666")))
                  (VList [example_fabric_vlan]))
    by (exists sim_done, sim_done; repeat split).
  destruct (second_run_changes_nothing sim_sdk example_params
              sim_fresh sim_fresh
              (mkSim [] ["test-vlan_666"] [mkVnicEtherIf example_dn "no" "test-vlan_666"] [])
              sim_done sim_done sim_done
              (VBool true) VNone (VList [example_fabric_vlan]) VNone VNone
              (VBool true) (VObj (mkMo "vnicEtherIf" (example_dn +:+ "/if-test-vlan_666")))
              (VList [example_fabric_vlan]) (inr (VBool true))
              Hc eq_refl eq_refl eq_refl eq_refl eq_refl Hc' eq_refl eq_refl)
    as (H1 & H2 & H3 & H4 & H5).
  split; [reflexivity|]. split; [exact H1|]. split; [exact H2|]. split; [exact H3|].
  split; [exact (H4 (VBool true) eq_refl)|].
  exact (H5 (VBool true) sim_done eq_refl).
Defined.


(** ** Further properties of the module *)

Section Failures.

Context {W : Type}.
Variable sdk : call -> W -> reply * W.

(** X1: when the login raises, the run fails at once with the message of
    the exception: the login is the only call made and the results mapping
    stays empty. *)
Theorem login_failure_aborts (p : params) (w0 w1 : W) (e : exn) :
  sdk (login_call p) w0 = (inl e, w1) ->
  run sdk p w0 =
    (Exited (FailJson (exn_msg e)), mkState w1 ∅ [(login_call p, inl e)]).
Proof.
  intros Hlogin. unfold_calls. unfold_module. replay. reflexivity.
Qed.

(** X2: an exception raised by either query is not caught: it leaves [main]
    as an uncaught exception, after the login and without a logout, a write
    or a [changed] entry. *)
Theorem query_failure_escapes (p : params) (w0 w1 : W) (v0 : value) :
  sdk (login_call p) w0 = (inr v0, w1) ->
  (forall e w2, sdk (vnic_query p) w1 = (inl e, w2) ->
     run sdk p w0 =
       (Raised e, mkState w2 (<["logged_in":=true]> ∅)
                    [(login_call p, inr v0); (vnic_query p, inl e)])) /\
  (forall v1 w2 e w3,
     sdk (vnic_query p) w1 = (inr v1, w2) -> sdk (fabric_query p) w2 = (inl e, w3) ->
     run sdk p w0 =
       (Raised e, mkState w3 (<["logged_in":=true]> ∅)
                    [(login_call p, inr v0); (vnic_query p, inr v1);
                     (fabric_query p, inl e)])).
Proof.
  intros Hlogin. split.
  - intros e w2 Hq. unfold_calls. unfold_module. replay. reflexivity.
  - intros v1 w2 e w3 Hq Hf. unfold_calls. unfold_module. replay. all: reflexivity.
Qed.

End Failures.

(** Refute or establish membership in a log of known shape. *)
Ltac in_log H :=
  repeat (apply elem_of_cons in H as [H | H]; [try discriminate H|]);
  try (apply elem_of_nil in H; destruct H).

Section EveryRun.

Context {W : Type}.
Variable sdk : call -> W -> reply * W.

(** X3: whatever the SDK answers, the calls of a run are an initial part of
    login, query on the template, query on the fabric, [add_mo], [commit],
    logout, or else exactly login, the two queries and logout; the login is
    always made and always first. *)
Theorem calls_follow_fixed_order (p : params) (w : W) :
  let cs := calls (log (run sdk p w).2) in
  cs !! 0 = Some (login_call p) /\
  (cs `prefix_of` [login_call p; vnic_query p; fabric_query p; add_call p; Commit; Logout] \/
   cs = [login_call p; vnic_query p; fabric_query p; Logout]).
Proof.
  unfold_module. split_replies sdk.
  all: split; [reflexivity|].
  all: first [right; reflexivity | left; eexists; reflexivity].
Qed.

(** X4: every write of a run is the [add_mo] of the requested VLAN (parent
    the resolved template path, [default_net] "no") or the [commit], and a
    run that writes has seen the query for the VLAN on the template return
    a falsy value. *)
Theorem writes_add_the_requested_vlan (p : params) (w : W) :
  let l := log (run sdk p w).2 in
  (forall c, c ∈ writes l -> c = add_call p \/ c = Commit) /\
  (writes l <> [] ->
   exists v1, l !! 1 = Some (vnic_query p, inr v1) /\ truthy v1 = false).
Proof.
  unfold_module. split_replies sdk.
  all: split; [intros c Hc; vm_compute in Hc; in_log Hc; subst; auto|].
  all: intros Hw; try (exfalso; apply Hw; reflexivity).
  all: eexists; split; [reflexivity|assumption].
Qed.

(** X5: [changed] is true in the results exactly when the commit returned. *)
Theorem changed_iff_committed (p : params) (w : W) :
  let r := run sdk p w in
  results r.2 !! "changed" = Some true <-> exists v, (Commit, inr v) ∈ log r.2.
Proof.
  unfold_module. split_replies sdk.
  all: split; [intros Hc | intros [v' Hin]].
  all: try discriminate Hc.
  all: try (in_log Hin; fail).
  all: try reflexivity.
  all: eexists; repeat constructor.
Qed.

End EveryRun.

Section Endings.

Context {W : Type}.
Variable sdk : call -> W -> reply * W.

(** X6: [main] never runs off its end, and it exits successfully exactly
    when the logout returned; the mapping it then passes to [exit_json] is
    the results dictionary, with [logged_in] and [logged_out] true and a
    [changed] entry. *)
Theorem success_exit_reports_all_keys (p : params) (w : W) :
  let r := run sdk p w in
  r.1 <> Returned tt /\
  ((exists kw, r.1 = Exited (ExitJson kw)) <-> (exists v, last (log r.2) = Some (Logout, inr v))) /\
  (forall kw, r.1 = Exited (ExitJson kw) ->
     kw = results r.2 /\ kw !! "logged_in" = Some true /\
     kw !! "logged_out" = Some true /\ is_Some (kw !! "changed")).
Proof.
  unfold_module. split_replies sdk.
  all: split; [discriminate|]; split.
  all: try (split; [intros [kw [=]] | intros [v' [=]]]; fail).
  all: try (split; intros _; eexists; reflexivity).
  all: try (intros kw [=]; fail).
  all: intros kw [= <-]; repeat split; eexists; reflexivity.
Qed.

(** X7: every failure names its cause.  A [fail_json] carries either the
    fixed fabric message, after a fabric-wide query that returned a falsy
    value, or the message of the exception that the last call (login,
    [add_mo], [commit] or logout) raised; an uncaught exception is the one
    that the last call, one of the two queries, raised. *)
Theorem failures_name_their_cause (p : params) (w : W) :
  let r := run sdk p w in
  (forall msg, r.1 = Exited (FailJson msg) ->
     (msg = "VLAN does not exist on UCS Fabric Interconnects" /\
      exists v, last (log r.2) = Some (fabric_query p, inr v) /\ truthy v = false) \/
     (exists c e, last (log r.2) = Some (c, inl e) /\ msg = exn_msg e /\
                  c ∈ [login_call p; add_call p; Commit; Logout])) /\
  (forall e, r.1 = Raised e ->
     last (log r.2) = Some (vnic_query p, inl e) \/
     last (log r.2) = Some (fabric_query p, inl e)).
Proof.
  unfold_module. split_replies sdk.
  all: split; [intros msg Hm | intros e' He].
  all: try discriminate Hm; try discriminate He.
  all: try (injection He as <-; first [left; reflexivity | right; reflexivity]).
  all: injection Hm as <-.
  all: try (left; split; [reflexivity|]; eexists; split; [reflexivity|assumption]).
  all: right; eexists _, _; split; [reflexivity|]; split; [reflexivity|].
  all: unfold login_call, add_call, target_dn; set_solver.
Qed.

(** X8: [logged_out] is set only after [logged_in], and a results mapping
    with [logged_out] always has a [changed] entry. *)
Theorem results_grow_in_order (p : params) (w : W) :
  let res := results (run sdk p w).2 in
  (is_Some (res !! "logged_out") -> res !! "logged_in" = Some true /\ is_Some (res !! "changed")) /\
  (is_Some (res !! "changed") -> res !! "logged_in" = Some true) /\
  (forall k, is_Some (res !! k) -> k ∈ ["logged_in"; "logged_out"; "changed"]).
Proof.
  unfold_module. split_replies sdk.
  all: split; [|split].
  all: try (intros [b Hb]; try discriminate Hb; repeat split; eexists; reflexivity).
  all: intros k [b Hb].
  all: repeat (rewrite lookup_insert in Hb; case_decide; [subst; set_solver|]).
  all: rewrite lookup_empty in Hb; discriminate.
Qed.

End Endings.

(** ** The helpers on their own, from any state *)

Section Helpers.

Context {W : Type}.
Variable sdk : call -> W -> reply * W.

(** X9: [add_vlan_to_vnic_template] called for a VLAN that is already on
    the template does nothing at all; otherwise it either returns with
    [changed] set to true or ends in [fail_json] with the results untouched.
    It never lets an exception escape and never sets [changed] to false. *)
Theorem add_vlan_sets_changed_or_fails (ucsm : UCS) (dn vlan : string)
    (vlan_on_vnic_template : bool) (s : state W) :
  let r := add_vlan_to_vnic_template sdk ucsm dn vlan vlan_on_vnic_template s in
  (vlan_on_vnic_template = true -> r = (Returned tt, s)) /\
  (vlan_on_vnic_template = false ->
   (r.1 = Returned tt /\ results r.2 = <["changed":=true]> (results s) /\
    calls (log r.2) = calls (log s) ++ [AddMo (mkVnicEtherIf dn "no" vlan); Commit]) \/
   (exists msg, r.1 = Exited (FailJson msg) /\ results r.2 = results s)).
Proof.
  destruct vlan_on_vnic_template; (split; [intros Hf | intros Hf]); try discriminate Hf.
  - reflexivity.
  - unfold_module. cbn [negb]. split_replies sdk.
    + right. eexists. split; reflexivity.
    + right. eexists. split; reflexivity.
    + left. split; [reflexivity|]. split; [reflexivity|].
      unfold calls. rewrite <- !app_assoc, map_app. reflexivity.
Qed.

(** X10: [log_into_ucs] and [log_out_of_ucs] turn every exception of the
    SDK into a [fail_json] with its message and leave the results as they
    were; when the call returns they set their own flag and nothing else.
    Either way the helper makes exactly that one call. *)
Theorem session_helpers_never_raise (ucsm : UCS) (s : state W) :
  let login := Login (ucsm_ip ucsm) (ucsm_login ucsm) (ucsm_pw ucsm) in
  let i := log_into_ucs sdk ucsm s in
  let o := log_out_of_ucs sdk ucsm s in
  (forall e w', sdk login (remote s) = (inl e, w') ->
     i = (Exited (FailJson (exn_msg e)),
          mkState w' (results s) (log s ++ [(login, inl e)]))) /\
  (forall v w', sdk login (remote s) = (inr v, w') ->
     i = (Returned tt,
          mkState w' (<["logged_in":=true]> (results s)) (log s ++ [(login, inr v)]))) /\
  (forall e w', sdk Logout (remote s) = (inl e, w') ->
     o = (Exited (FailJson (exn_msg e)),
          mkState w' (results s) (log s ++ [(Logout, inl e)]))) /\
  (forall v w', sdk Logout (remote s) = (inr v, w') ->
     o = (Returned tt,
          mkState w' (<["logged_out":=true]> (results s)) (log s ++ [(Logout, inr v)]))).
Proof.
  unfold_module. repeat split; intros ? ? Hr; rewrite Hr; reflexivity.
Qed.

(** X11: the two checks only read: each makes one query, leaves the results
    alone, answers with the truth value of what the query returned, and
    lets an exception of the query through instead of reporting it with
    [fail_json]. *)
Theorem checks_only_read (ucsm : UCS) (dn vlan : string) (s : state W) :
  let a := check_if_vlan_on_vnic sdk ucsm dn vlan s in
  let b := check_vlan_exists_on_fi sdk ucsm vlan s in
  (results a.2 = results s /\
   exists r, log a.2 = log s ++ [(QueryDn (dn +:+ "/if-" +:+ vlan), r)] /\
     a.1 = match r with inl e => Raised e | inr v => Returned (truthy v) end) /\
  (results b.2 = results s /\
   exists r, log b.2 = log s ++ [(QueryClassid "fabricVlan" (filter_string vlan), r)] /\
     b.1 = match r with inl e => Raised e | inr v => Returned (truthy v) end).
Proof.
  unfold_module. split.
  - split_replies sdk.
    all: split; [reflexivity|]; eexists; split; [reflexivity|].
    all: cbn; try rewrite Heqb; reflexivity.
  - split_replies sdk.
    all: split; [reflexivity|]; eexists; split; [reflexivity|].
    all: cbn; try rewrite Heqb; reflexivity.
Qed.

End Helpers.

(** ** The strings the module builds *)

Lemma build_vnic_templ_dn_cons (o : string) (orgs : list string) (t : string) :
  build_vnic_templ_dn (o :: orgs) t = "org-" +:+ o +:+ "/" +:+ build_vnic_templ_dn orgs t.
Proof.
  unfold build_vnic_templ_dn. rewrite !org_loop.
  cbn [map]. rewrite concat_no_separator, !append_assoc. reflexivity.
Qed.

Lemma length_append (s t : string) :
  String.length (s +:+ t) = String.length s + String.length t.
Proof.
  induction s as [|a s IH]; [reflexivity|].
  rewrite append_cons. cbn [String.length]. rewrite IH. reflexivity.
Qed.

Lemma append_cancel_r (s t u : string) : s +:+ u = t +:+ u -> s = t.
Proof.
  revert t. induction s as [|a s IH]; intros [|b t] H.
  - reflexivity.
  - apply (f_equal String.length) in H. rewrite !length_append in H.
    cbn [String.length] in H. lia.
  - apply (f_equal String.length) in H. rewrite !length_append in H.
    cbn [String.length] in H. lia.
  - rewrite !append_cons in H. injection H as -> H. f_equal. apply IH, H.
Qed.

(** X12: the segments of [org] are not escaped.  A segment that itself
    contains ["/org-"] gives the same target path as the two segments it
    spells, so different [org] lists can address the same template. *)
Theorem org_segments_are_not_escaped (a b : string) (orgs : list string) (t : string) :
  build_vnic_templ_dn ((a +:+ "/org-" +:+ b) :: orgs) t =
  build_vnic_templ_dn (a :: b :: orgs) t.
Proof.
  rewrite !build_vnic_templ_dn_cons, !append_assoc. reflexivity.
Qed.

(** X13: different VLAN names are never confused: the filter of the
    fabric-wide query and the distinguished name of the query on the
    template each determine the VLAN name. *)
Theorem queries_determine_the_vlan (dn a b : string) :
  (filter_string a = filter_string b -> a = b) /\
  (dn +:+ "/if-" +:+ a = dn +:+ "/if-" +:+ b -> a = b).
Proof.
  split; intros H.
  - unfold filter_string in H. apply (inj (String.app "(name, ")) in H.
    eapply append_cancel_r, H.
  - apply (inj (String.app dn)) in H. apply (inj (String.app "/if-")) in H. exact H.
Qed.

Section Sessions.

Context {W : Type}.
Variable sdk : call -> W -> reply * W.

(** X14: a run calls logout exactly when the fabric-wide query returned a
    truthy value and no call before the logout raised; a run that fails
    earlier, or finds the VLAN missing from the fabric, ends with its
    session still open. *)
Theorem logout_only_after_the_decision (p : params) (w : W) :
  let l := log (run sdk p w).2 in
  Logout ∈ calls l <->
  (exists v2, (fabric_query p, inr v2) ∈ l /\ truthy v2 = true) /\
  (forall c e, (c, inl e) ∈ l -> c = Logout).
Proof.
  unfold_module. split_replies sdk.
  all: split; [intros Hin | intros [[v' [Hq Hv]] Hex]].
  all: try (cbn in Hin; in_log Hin; fail).
  all: try (split; [eexists; split; [repeat constructor | assumption]
                   | intros c' e' Hc; in_log Hc; congruence]).
  all: try (cbn; repeat constructor; fail).
  all: try (in_log Hq; congruence).
  all: exfalso.
  all: match goal with
       | Hex : forall c e, (c, inl e) ∈ ?l -> c = Logout |- _ =>
           match l with
           | context [(?c0, inl ?e0)] =>
               assert (Hc0 : c0 = Logout) by (apply (Hex c0 e0); repeat constructor);
               discriminate Hc0
           end
       end.
Qed.

End Sessions.

(** The play against a UCS Manager that rejects the login. *)
Lemma login_failure_aborts_witness :
  sim_sdk (login_call example_params) sim_login_down =
    (inl (Exception "bad credentials"), sim_login_down) /\
  run sim_sdk example_params sim_login_down =
    (Exited (FailJson "bad credentials"),
     mkState sim_login_down ∅
       [(login_call example_params, inl (Exception "bad credentials"))]).
Proof.
  split; [reflexivity|].
  exact (login_failure_aborts sim_sdk example_params sim_login_down sim_login_down
           (Exception "bad credentials") eq_refl).
Defined.

(** The play against a UCS Manager whose queries fail. *)
Lemma query_failure_escapes_witness :
  sim_sdk (login_call example_params) sim_query_dn_down = (inr (VBool true), sim_query_dn_down) /\
  (run sim_sdk example_params sim_query_dn_down).1 = Raised (Exception "connection reset") /\
  (run sim_sdk example_params sim_query_classid_down).1 = Raised (Exception "connection reset").
Proof.
  split; [reflexivity|]. split.
  - rewrite (proj1 (query_failure_escapes sim_sdk example_params
                      sim_query_dn_down sim_query_dn_down (VBool true) eq_refl)
               (Exception "connection reset") sim_query_dn_down eq_refl).
    reflexivity.
  - rewrite (proj2 (query_failure_escapes sim_sdk example_params
                      sim_query_classid_down sim_query_classid_down (VBool true) eq_refl)
               VNone sim_query_classid_down (Exception "connection reset")
               sim_query_classid_down eq_refl eq_refl).
    reflexivity.
Defined.
